(** * redAsset: the record filtering engine of [main.go]

    A shallow embedding of the match predicate ([isAllowed],
    [isValidResult]), of the two scan drivers ([parseFDNS],
    [queryCATransparency]) and of the start-up code of [main], together
    with the properties the specification states about them. *)

From Stdlib Require Import List String Ascii ZArith Bool Lia Arith.
Import ListNotations.

Local Open Scope list_scope.
Local Open Scope string_scope.

(** ** Go strings

    A Go [string] is a byte sequence; [String.string] is a sequence of
    8-bit characters, so the two agree. *)

Module Strings.

(** [strings.HasSuffix(s, suffix)]:
    [len(s) >= len(suffix) && s[len(s)-len(suffix):] == suffix]. *)
Definition HasSuffix (s suffix : string) : bool :=
  (String.length suffix <=? String.length s)%nat
  && String.eqb
       (substring (String.length s - String.length suffix)
                  (String.length suffix) s)
       suffix.

End Strings.

(** ** The pieces of Go's [net] package the predicate calls

    An [IP] and an [IPMask] are byte slices; the nil slice is [[]].
    Bytes are integers in [0, 256) and [&] is [Z.land]. *)

Module Net.

Definition IP := list Z.
Definition IPMask := list Z.

Record IPNet := { NetIP : IP; Mask : IPMask }.

Definition IPv4len : nat := 4.
Definition IPv6len : nat := 16.

Definition isZeros (p : IP) : bool := forallb (Z.eqb 0) p.

(** [IP.To4]: a 4-byte address is returned as it is, a 16-byte
    IPv4-mapped address gives its last four bytes, everything else nil. *)
Definition To4 (ip : IP) : IP :=
  if (List.length ip =? IPv4len)%nat then ip
  else if (List.length ip =? IPv6len)%nat
          && isZeros (firstn 10 ip)
          && (nth 10 ip 0 =? 255)%Z
          && (nth 11 ip 0 =? 255)%Z
       then firstn 4 (skipn 12 ip)
       else [].

(** [networkNumberAndMask]: the address and the mask of a network brought
    to the same length, or [(nil, nil)] when they do not fit. *)
Definition networkNumberAndMask (n : IPNet) : IP * IPMask :=
  let ip4 := To4 (NetIP n) in
  let ip := match ip4 with [] => NetIP n | _ => ip4 end in
  match ip4, negb (List.length ip =? IPv6len)%nat with
  | [], true => ([], [])
  | _, _ =>
      let m := Mask n in
      if (List.length m =? IPv4len)%nat then
        if negb (List.length ip =? IPv4len)%nat then ([], []) else (ip, m)
      else if (List.length m =? IPv6len)%nat then
        if (List.length ip =? IPv4len)%nat then (ip, skipn 12 m) else (ip, m)
      else ([], [])
  end.

(** [IPNet.Contains]: byte-wise comparison under the mask. *)
Definition Contains (n : IPNet) (ip : IP) : bool :=
  let '(nn, m) := networkNumberAndMask n in
  let ip := match To4 ip with [] => ip | x => x end in
  let l := List.length ip in
  if negb (l =? List.length nn)%nat then false
  else forallb
         (fun i => (Z.land (nth i nn 0) (nth i m 0)
                    =? Z.land (nth i ip 0) (nth i m 0))%Z)
         (seq 0 l).

(** The shape of the networks [net.ParseCIDR] returns: four address bytes
    with four mask bytes, or sixteen with sixteen. *)
Definition cidrShaped (n : IPNet) : bool :=
  ((List.length (NetIP n) =? IPv4len)%nat && (List.length (Mask n) =? IPv4len)%nat)
  || ((List.length (NetIP n) =? IPv6len)%nat && (List.length (Mask n) =? IPv6len)%nat).

(** *** The dotted-quad branch of [net.ParseIP]

    [net.ParseIP] itself stays a parameter of the predicate below; this
    branch is what it does on the IPv4 text form, and serves to run the
    predicate on concrete records. *)

Definition big : Z := 16777215.

Definition isDigit (c : ascii) : bool :=
  (48 <=? nat_of_ascii c)%nat && (nat_of_ascii c <=? 57)%nat.

(** The loop of [dtoi], with the running value [n] and index [i]. *)
Fixpoint dtoi_from (s : string) (n : Z) (i : nat) : Z * nat * bool :=
  match s with
  | String c s' =>
      if isDigit c then
        let n' := (n * 10 + (Z.of_nat (nat_of_ascii c) - 48))%Z in
        if (big <=? n')%Z then (big, i, false)
        else dtoi_from s' n' (S i)
      else if (i =? 0)%nat then (0%Z, 0%nat, false) else (n, i, true)
  | EmptyString =>
      if (i =? 0)%nat then (0%Z, 0%nat, false) else (n, i, true)
  end.

Definition dtoi (s : string) : Z * nat * bool := dtoi_from s 0 0.

Definition v4InV6Prefix : IP := [0; 0; 0; 0; 0; 0; 0; 0; 0; 0; 255; 255]%Z.

Definition IPv4 (a b c d : Z) : IP := (v4InV6Prefix ++ [a; b; c; d])%list.

(** The loop of [parseIPv4]: [todo] fields are still to be read and [i]
    is the index of the next one. *)
Fixpoint parseIPv4_fields (todo i : nat) (s : string) : option (list Z) :=
  match todo with
  | O => if (String.length s =? 0)%nat then Some [] else None
  | S todo' =>
      if (String.length s =? 0)%nat then None
      else
        let after_dot :=
          if (0 <? i)%nat then
            match s with
            | String "."%char s' => Some s'
            | _ => None
            end
          else Some s in
        match after_dot with
        | None => None
        | Some s1 =>
            let '(n, c, ok) := dtoi s1 in
            if negb ok || (255 <? n)%Z then None
            else if (1 <? c)%nat
                    && match s1 with
                       | String "0"%char _ => true
                       | _ => false
                       end
            then None
            else
              match parseIPv4_fields todo' (S i)
                      (substring c (String.length s1 - c) s1) with
              | Some p => Some (n :: p)
              | None => None
              end
        end
  end.

Definition parseIPv4 (s : string) : IP :=
  match parseIPv4_fields IPv4len 0 s with
  | Some [a; b; c; d] => IPv4 a b c d
  | _ => []
  end.

End Net.

(** ** The match predicate on names *)

(** [isAllowed] (main.go, l.172-180): the first pattern that is a suffix
    of [domain] decides. *)
Fixpoint isAllowed (allowed : list string) (domain : string) : bool :=
  match allowed with
  | [] => false
  | s :: rest =>
      if Strings.HasSuffix domain s then true else isAllowed rest domain
  end.


(** Modelled from the spec: the struct [DNSEntry] is declared outside
    main.go; the code reads its fields [Name] and [Value], the hostname
    and the record target. *)
Record DNSEntry := { Name : string; Value : string }.

Section Predicate.

(** [net.ParseIP], a function of Go's standard library: the text of an
    address to its bytes, nil when the text is no address. *)
Variable ParseIP : string -> Net.IP.

(** The loop over the prefixes in [isValidResult] (main.go, l.143-147). *)
Fixpoint anyContains (ips : list Net.IPNet) (entryIp : Net.IP) : bool :=
  match ips with
  | [] => false
  | ip :: rest =>
      if Net.Contains ip entryIp then true else anyContains rest entryIp
  end.

(** [isValidResult] (main.go, l.138-170). [None] stands for control
    falling out of an [if] block, [Some b] for [return b]. *)
Definition isValidResult (dnsentry : DNSEntry)
    (allowed blacklist : list string) (ips : list Net.IPNet) : bool :=
  let ipStep : option bool :=
    if (0 <? List.length ips)%nat then
      let entryIp := ParseIP (Value dnsentry) in
      if anyContains ips entryIp then Some true
      else if (List.length allowed <=? 0)%nat then Some false
      else None
    else None in
  match ipStep with
  | Some b => b
  | None =>
      let allowStep : option bool :=
        if (0 <? List.length allowed)%nat then
          if negb (isAllowed allowed (Name dnsentry)) then Some false
          else None
        else None in
      match allowStep with
      | Some b => b
      | None =>
          let denyStep : option bool :=
            if (0 <? List.length blacklist)%nat then
              if isAllowed blacklist (Name dnsentry) then Some false
              else None
            else None in
          match denyStep with
          | Some b => b
          | None => true
          end
      end
  end.

End Predicate.

(** ** Process state and effects *)

(** What the process does that can be observed, in program order. The
    elapsed time printed by the milestone line is left out; [Called]
    is a ghost event marking a call of [isValidResult] with the record
    and the prefix set it is given. *)
Inductive event :=
| Println (line : string)
| LogPrintln (msg : string)
| LogFDNS (millions matched : Z)
| LogLimit (blacklisted : bool) (n : nat)
| LogCTError (domain : string)
| LogCT (n : nat) (domain : string)
| LogFatal (msg : string)
| PrintDefaults
| Called (e : DNSEntry) (ips : list Net.IPNet).

(** The package-level variables [count] and [valid] (main.go, l.18-19)
    and the output produced so far. *)
Record world := { count : Z; valid : Z; out : list event }.

(** [var count = 1], [var valid = 0]. *)
Definition initialWorld : world := {| count := 1; valid := 0; out := [] |}.

(** A Go [int] is taken to be 64 bits wide; [x++] wraps around. *)
Definition wrapInt (x : Z) : Z :=
  ((x + 9223372036854775808) mod 18446744073709551616
   - 9223372036854775808)%Z.

Inductive outcome (A : Type) :=
| Returned (a : A)
| Exited (code : Z).
Arguments Returned {A} a.
Arguments Exited {A} code.

(** Computations that read and write the world and may end the process. *)
Definition M (A : Type) : Type := world -> outcome A * world.

Definition ret {A} (a : A) : M A := fun w => (Returned a, w).

Definition bind {A B} (m : M A) (k : A -> M B) : M B :=
  fun w =>
    match m w with
    | (Returned a, w') => k a w'
    | (Exited c, w') => (Exited c, w')
    end.

Notation "x <- m ;; k" := (bind m (fun x => k))
  (at level 61, m at next level, right associativity).
Notation "m ;; k" := (bind m (fun _ => k))
  (at level 61, right associativity).
Notation "' pat <- m ;; k" :=
  (bind m (fun x => match x with pat => k end))
  (at level 61, pat pattern, m at next level, right associativity).

Definition emit (e : event) : M unit :=
  fun w => (Returned tt,
            {| count := count w; valid := valid w;
               out := (out w ++ [e])%list |}).

Definition getCount : M Z := fun w => (Returned (count w), w).
Definition getValid : M Z := fun w => (Returned (valid w), w).

(** [count++] and [valid++]. *)
Definition incCount : M unit :=
  fun w => (Returned tt,
            {| count := wrapInt (count w + 1); valid := valid w;
               out := out w |}).
Definition incValid : M unit :=
  fun w => (Returned tt,
            {| count := count w; valid := wrapInt (valid w + 1);
               out := out w |}).

(** [os.Exit(code)]. *)
Definition exit {A} (code : Z) : M A := fun w => (Exited code, w).

(** [log.Fatal(msg)]: the message, then [os.Exit(1)]. *)
Definition logFatal {A} (msg : string) : M A :=
  emit (LogFatal msg) ;; exit 1.

Definition when (b : bool) (m : M unit) : M unit :=
  if b then m else ret tt.

(** [for _, x := range xs { body x }]. *)
Fixpoint forEach {A} (xs : list A) (body : A -> M unit) : M unit :=
  match xs with
  | [] => ret tt
  | x :: rest => body x ;; forEach rest body
  end.

(** The names written to standard output, in order. *)
Fixpoint printed (evs : list event) : list string :=
  match evs with
  | [] => []
  | Println line :: rest => line :: printed rest
  | _ :: rest => printed rest
  end.

(** The names a computation adds to standard output when run from [w]. *)
Definition emittedBy {A} (m : M A) (w : world) : list string :=
  skipn (List.length (printed (out w))) (printed (out (snd (m w)))).

(** The milestone lines logged, in order: the millions and the match
    count each one reports. *)
Fixpoint milestones (evs : list event) : list (Z * Z) :=
  match evs with
  | [] => []
  | LogFDNS m v :: rest => (m, v) :: milestones rest
  | _ :: rest => milestones rest
  end.

(** The calls of [isValidResult], in order. *)
Fixpoint calls (evs : list event) : list (DNSEntry * list Net.IPNet) :=
  match evs with
  | [] => []
  | Called e ips :: rest => (e, ips) :: calls rest
  | _ :: rest => calls rest
  end.

(** ** The scan drivers *)

(** The body of an HTTP exchange as [queryCATransparency] sees it:
    [http.Get] fails, [ioutil.ReadAll] fails, or the body is read. *)
Inductive httpResult :=
| GetError
| ReadError
| Body (body : string).

Section Drivers.

Variable ParseIP : string -> Net.IP.

(** Modelled from the spec: [parseDnsHosts] is defined outside main.go;
    it yields the records of the bulk file, one per parseable line, in
    file order, and the sequence is finite. *)
Variable parseDnsHosts : string -> list DNSEntry.

(** [http.Get] followed by [ioutil.ReadAll], on a URL. *)
Variable httpGet : string -> httpResult.

(** [json.Unmarshal(body, &bodyDomain)]: the [name_value] fields the
    slice holds afterwards, given the body and what it held before. *)
Variable Unmarshal : string -> list string -> list string.

(** A call of [isValidResult], marked in the output. *)
Definition callIsValidResult (e : DNSEntry)
    (allowed blacklist : list string) (ips : list Net.IPNet) : M bool :=
  emit (Called e ips) ;;
  ret (isValidResult ParseIP e allowed blacklist ips).

(** The body of the loop of [parseFDNS] (main.go, l.123-133). *)
Definition scanRecord (allowed blacklist : list string)
    (ips : list Net.IPNet) (dnsentry : DNSEntry) : M unit :=
  c <- getCount ;;
  when ((Z.rem c 1000000 =? 0)%Z && (0 <? c)%Z)
       (v <- getValid ;; emit (LogFDNS (Z.quot c 1000000) v)) ;;
  ok <- callIsValidResult dnsentry allowed blacklist ips ;;
  when ok (emit (Println (Name dnsentry)) ;; incValid) ;;
  incCount.

(** [parseFDNS] (main.go, l.115-136). *)
Definition parseFDNS (fname : string) (allowed blacklist : list string)
    (ips : list Net.IPNet) : M unit :=
  when ((List.length allowed <=? 0)%nat && (List.length ips <=? 0)%nat)
       (logFatal "No valid domains (0) and IPs (0) parsed.") ;;
  forEach (parseDnsHosts fname) (scanRecord allowed blacklist ips).

(** The body of the inner loop of [queryCATransparency] (main.go,
    l.105-108). *)
Definition checkCertificate (allowed blacklist : list string)
    (d : string) : M unit :=
  ok <- callIsValidResult {| Name := d; Value := "" |}
                          allowed blacklist [] ;;
  when ok (emit (Println d) ;; incValid).

(** The outer loop of [queryCATransparency] (main.go, l.88-112) over the
    domains still to query; [bodyDomain] is declared before the loop and
    keeps its contents from one domain to the next. *)
Fixpoint queryDomains (todo : list string) (bodyDomain : list string)
    (allowed blacklist : list string) : M unit :=
  match todo with
  | [] => ret tt
  | domain :: rest =>
      let url := "https://crt.sh/?q=%" ++ domain ++ "&output=json" in
      match httpGet url with
      | GetError =>
          emit (LogCTError domain) ;;
          queryDomains rest bodyDomain allowed blacklist
      | ReadError => queryDomains rest bodyDomain allowed blacklist
      | Body body =>
          let bodyDomain' := Unmarshal body bodyDomain in
          forEach bodyDomain' (checkCertificate allowed blacklist) ;;
          emit (LogCT (List.length bodyDomain') domain) ;;
          queryDomains rest bodyDomain' allowed blacklist
      end
  end.

(** The certificate names the loop of [queryCATransparency] goes
    through, in order (main.go, l.88-104): for each domain whose request
    and read succeed, what [bodyDomain] holds after [json.Unmarshal]; a
    failed request or read adds none and leaves [bodyDomain] as it is. *)
Fixpoint certificateNames (todo : list string) (bodyDomain : list string)
    : list string :=
  match todo with
  | [] => []
  | domain :: rest =>
      let url := "https://crt.sh/?q=%" ++ domain ++ "&output=json" in
      match httpGet url with
      | GetError => certificateNames rest bodyDomain
      | ReadError => certificateNames rest bodyDomain
      | Body body =>
          let bodyDomain' := Unmarshal body bodyDomain in
          (bodyDomain' ++ certificateNames rest bodyDomain')%list
      end
  end.

(** [queryCATransparency] (main.go, l.83-113). *)
Definition queryCATransparency (allowed blacklist : list string) : M unit :=
  queryDomains allowed [] allowed blacklist.

(** ** Start-up *)

(** The command-line flags after [flag.Parse()]. *)
Record flags := {
  file : string;
  domains : string;
  bdomains : string;
  catransoff : bool
}.

(** The two goroutines [main] starts, with the arguments they get. *)
Inductive worker :=
| FDNS (fname : string) (allowed blacklist : list string)
       (ips : list Net.IPNet)
| CATrans (allowed blacklist : list string).

(** Modelled from the spec: [parseDomainFile] is defined outside main.go;
    it reads a list file and returns the domain lines, the lines that are
    CIDR networks, and an error when the file cannot be read. *)
Variable parseDomainFile :
  string -> (list string * list Net.IPNet) + string.

(** [main] (main.go, l.22-62 and 69-76) up to [wg.Wait()]: the main
    goroutine, returning the workers it has started in order. *)
Definition main (fl : flags) : M (list worker) :=
  let allowedDomains : list string := [] in
  let blacklistDomains : list string := [] in
  let ips : list Net.IPNet := [] in
  when (String.eqb (file fl) "")
       (emit (Println "Usage:") ;; emit PrintDefaults ;; exit 1) ;;
  '(allowedDomains, ips) <-
     (if negb (String.eqb (domains fl) "") then
        match parseDomainFile (domains fl) with
        | inr err => logFatal ("Error reading domain file: " ++ err)
        | inl (ds, nets) =>
            emit (LogLimit false (List.length ds)) ;; ret (ds, nets)
        end
      else ret (allowedDomains, ips)) ;;
  '(blacklistDomains, ips) <-
     (if negb (String.eqb (bdomains fl) "") then
        match parseDomainFile (bdomains fl) with
        | inr err => logFatal ("Error reading blacklist domain file: " ++ err)
        | inl (ds, nets) =>
            emit (LogLimit true (List.length ds)) ;; ret (ds, nets)
        end
      else ret (blacklistDomains, ips)) ;;
  let bulk := FDNS (file fl) allowedDomains blacklistDomains ips in
  ret (if negb (catransoff fl)
       then [bulk; CATrans allowedDomains blacklistDomains]
       else [bulk]).

(** The body of each goroutine (main.go, l.63-67 and 71-75). *)
Definition runWorker (wk : worker) : M unit :=
  match wk with
  | FDNS fname allowed blacklist ips =>
      emit (LogPrintln "Parsing FDNS file.") ;;
      parseFDNS fname allowed blacklist ips
  | CATrans allowed blacklist =>
      emit (LogPrintln "Querying certificate transparency logs.") ;;
      queryCATransparency allowed blacklist
  end.

End Drivers.

(** ** Specification-side definitions and concrete inputs *)

(** The specification's reading of a suffix match: the name equals the
    pattern, or ends with the pattern preceded by a label boundary. *)
Definition labelSuffixMatch (pattern name : string) : bool :=
  String.eqb name pattern || Strings.HasSuffix name ("." ++ pattern).

(** The entries of a record sequence the predicate admits, in order. *)
Definition admitted (ParseIP : string -> Net.IP) (entries : list DNSEntry)
    (allowed blacklist : list string) (ips : list Net.IPNet)
    : list DNSEntry :=
  filter (fun e => isValidResult ParseIP e allowed blacklist ips) entries.

Module Sample.

(** 10.0.0.0/8 and 192.168.0.0/16 as [net.ParseCIDR] returns them. *)
Definition net10 : Net.IPNet :=
  {| Net.NetIP := [10; 0; 0; 0]%Z; Net.Mask := [255; 0; 0; 0]%Z |}.
Definition net192 : Net.IPNet :=
  {| Net.NetIP := [192; 168; 0; 0]%Z; Net.Mask := [255; 255; 0; 0]%Z |}.

(** The two records of the end-to-end scenario. *)
Definition twoRecords : list DNSEntry :=
  [ {| Name := "a.example.com"; Value := "1.2.3.4" |};
    {| Name := "a.other.com"; Value := "9.9.9.9" |} ].

(** A bulk file holding [twoRecords]. *)
Definition bulkFile (fname : string) : list DNSEntry := twoRecords.

(** An allow file with a domain and a network, and a deny file with a
    domain and another network. *)
Definition listFiles (fname : string)
    : (list string * list Net.IPNet) + string :=
  if String.eqb fname "allow.txt" then inl (["example.com"], [net10])
  else if String.eqb fname "deny.txt"
       then inl (["internal.example.com"], [net192])
       else inr "no such file".

(** A host without network access: every [http.Get] fails. *)
Definition offline (url : string) : httpResult := GetError.

(** A body that is no JSON: the slice keeps what it held. *)
Definition unmarshalNothing (body : string) (old : list string)
    : list string := old.

Definition bothLists : flags :=
  {| file := "fdns.json.gz"; domains := "allow.txt";
     bdomains := "deny.txt"; catransoff := false |}.

Definition noLists : flags :=
  {| file := "fdns.json.gz"; domains := ""; bdomains := "";
     catransoff := false |}.

End Sample.

(** * Properties *)

(** ** Strings *)

Module StringsFacts.
Import Strings.

Lemma length_append (a b : string) :
  String.length (a ++ b) = (String.length a + String.length b)%nat.
Proof.
  induction a as [|c a IH]; simpl; [reflexivity | now rewrite IH].
Qed.

Lemma substring_all (s : string) :
  substring 0 (String.length s) s = s.
Proof.
  induction s as [|c s IH]; simpl; [reflexivity | now rewrite IH].
Qed.

Lemma substring_skip (pre s : string) (m : nat) :
  substring (String.length pre) m (pre ++ s) = substring 0 m s.
Proof.
  induction pre as [|c pre IH]; simpl; [reflexivity | exact IH].
Qed.

(** A string is its first [n] bytes followed by the rest. *)
Lemma split_at (s : string) (n : nat) :
  (n <= String.length s)%nat ->
  s = substring 0 n s ++ substring n (String.length s - n) s.
Proof.
  revert n; induction s as [|c s IH]; intros [|n] Hn; simpl in *.
  - reflexivity.
  - lia.
  - now rewrite substring_all.
  - f_equal. apply IH. lia.
Qed.

(** [HasSuffix] is the plain "ends with" relation on byte strings. *)
Lemma HasSuffix_spec (s suffix : string) :
  HasSuffix s suffix = true <-> exists pre, s = pre ++ suffix.
Proof.
  unfold HasSuffix. rewrite andb_true_iff, Nat.leb_le, String.eqb_eq.
  split.
  - intros [Hlen Hsub].
    exists (substring 0 (String.length s - String.length suffix) s).
    rewrite (split_at s (String.length s - String.length suffix)) at 1
      by lia.
    f_equal.
    replace (String.length s - (String.length s - String.length suffix))%nat
      with (String.length suffix) by lia.
    exact Hsub.
  - intros [pre ->]. rewrite length_append. split; [lia|].
    replace (String.length pre + String.length suffix
             - String.length suffix)%nat
      with (String.length pre) by lia.
    rewrite substring_skip. apply substring_all.
Qed.

End StringsFacts.

(** ** Name matching *)

Lemma isAllowed_spec (allowed : list string) (domain : string) :
  isAllowed allowed domain = true <->
  exists s, In s allowed /\ Strings.HasSuffix domain s = true.
Proof.
  induction allowed as [|p rest IH]; simpl.
  - split; [discriminate | intros (s & [] & _)].
  - destruct (Strings.HasSuffix domain p) eqn:Hp.
    + split; [intros _; exists p; auto | reflexivity].
    + rewrite IH. split.
      * intros (s & Hin & Hs). exists s; auto.
      * intros (s & [<- | Hin] & Hs); [congruence | exists s; auto].
Qed.

Lemma isAllowed_false (allowed : list string) (domain : string) :
  isAllowed allowed domain = false <->
  forall s, In s allowed -> Strings.HasSuffix domain s = false.
Proof.
  rewrite <- not_true_iff_false, isAllowed_spec. split.
  - intros H s Hin. apply not_true_iff_false. intros Hs. apply H.
    exists s; auto.
  - intros H (s & Hin & Hs). rewrite (H s Hin) in Hs. discriminate.
Qed.

(** C1 (as amended): [isAllowed] holds exactly when the name ends with
    one of the patterns as a byte string, whatever character stands
    before the pattern; so "sub.example.com", "example.com" and
    "notexample.com" all match the pattern "example.com". *)
Theorem isAllowed_plain_suffix :
  (forall (patterns : list string) (name : string),
      isAllowed patterns name = true <->
      exists p pre, In p patterns /\ name = pre ++ p)
  /\ isAllowed ["example.com"] "sub.example.com" = true
  /\ isAllowed ["example.com"] "example.com" = true
  /\ isAllowed ["example.com"] "notexample.com" = true.
Proof.
  split; [|repeat split; reflexivity].
  intros patterns name. rewrite isAllowed_spec. split.
  - intros (p & Hin & Hs). apply StringsFacts.HasSuffix_spec in Hs.
    destruct Hs as [pre ->]. exists p, pre; auto.
  - intros (p & pre & Hin & ->). exists p. split; [exact Hin|].
    apply StringsFacts.HasSuffix_spec. exists pre; reflexivity.
Qed.

(** C1 (counterexample): "notexample.com" matches the pattern
    "example.com" although no label boundary stands before it. *)
Lemma isAllowed_ignores_label_boundary :
  isAllowed ["example.com"] "notexample.com" = true
  /\ existsb (fun p => labelSuffixMatch p "notexample.com")
             ["example.com"] = false.
Proof. split; reflexivity. Qed.

(** ** Networks *)

Module NetFacts.
Import Net.

Lemma To4_nil : To4 [] = [].
Proof. reflexivity. Qed.

(** [To4] yields nil or four bytes. *)
Lemma To4_length (ip : IP) :
  To4 ip = [] \/ List.length (To4 ip) = 4%nat.
Proof.
  unfold To4.
  destruct (List.length ip =? IPv4len)%nat eqn:H4.
  - right. now apply Nat.eqb_eq in H4.
  - destruct (List.length ip =? IPv6len)%nat eqn:H6;
      cbn [andb]; [|now left].
    apply Nat.eqb_eq in H6.
    destruct (isZeros (firstn 10 ip)); cbn [andb]; [|now left].
    destruct (nth 10 ip 0 =? 255)%Z; cbn [andb]; [|now left].
    destruct (nth 11 ip 0 =? 255)%Z; [|now left].
    right. rewrite length_firstn, length_skipn, H6. reflexivity.
Qed.

(** For a network of the shape [net.ParseCIDR] returns, the network
    number has four or sixteen bytes and the mask as many. *)
Lemma networkNumberAndMask_shape (n : IPNet) :
  cidrShaped n = true ->
  let '(nn, m) := networkNumberAndMask n in
  (List.length nn = 4%nat \/ List.length nn = 16%nat)
  /\ List.length m = List.length nn.
Proof.
  unfold cidrShaped, networkNumberAndMask.
  rewrite orb_true_iff, !andb_true_iff, !Nat.eqb_eq.
  unfold IPv4len, IPv6len.
  intros [[Hip Hm] | [Hip Hm]]; rewrite Hm; cbn [Nat.eqb negb].
  - assert (E4 : To4 (NetIP n) = NetIP n)
      by (unfold To4, IPv4len; rewrite Hip; reflexivity).
    rewrite E4.
    destruct (NetIP n) as [|a r] eqn:E; [discriminate|].
    rewrite Hip. cbn. rewrite Hm. auto.
  - destruct (To4_length (NetIP n)) as [H0 | H0].
    + rewrite H0, Hip. cbn. rewrite Hm. auto.
    + destruct (To4 (NetIP n)) as [|a r] eqn:E; [discriminate|].
      rewrite H0. cbn [Nat.eqb negb]. rewrite length_skipn, Hm, H0. auto.
Qed.

(** Such a network contains no nil address. *)
Lemma Contains_nil (n : IPNet) :
  cidrShaped n = true -> Contains n [] = false.
Proof.
  intros Hn. pose proof (networkNumberAndMask_shape n Hn) as Hs.
  unfold Contains. destruct (networkNumberAndMask n) as [nn m].
  destruct Hs as [[H | H] _]; simpl; rewrite H; reflexivity.
Qed.

End NetFacts.

(** ** The match predicate *)

Section PredicateFacts.

Variable ParseIP : string -> Net.IP.

Lemma anyContains_true (ips : list Net.IPNet) (ip : Net.IP) :
  anyContains ips ip = true <->
  exists n, In n ips /\ Net.Contains n ip = true.
Proof.
  induction ips as [|p rest IH]; simpl.
  - split; [discriminate | intros (n & [] & _)].
  - destruct (Net.Contains p ip) eqn:Hp.
    + split; [intros _; exists p; auto | reflexivity].
    + rewrite IH. split.
      * intros (n & Hin & Hn). exists n; auto.
      * intros (n & [<- | Hin] & Hn); [congruence | exists n; auto].
Qed.

Lemma anyContains_false (ips : list Net.IPNet) (ip : Net.IP) :
  anyContains ips ip = false <->
  forall n, In n ips -> Net.Contains n ip = false.
Proof.
  rewrite <- not_true_iff_false, anyContains_true. split.
  - intros H n Hin. apply not_true_iff_false. intros Hn. apply H.
    exists n; auto.
  - intros H (n & Hin & Hn). rewrite (H n Hin) in Hn. discriminate.
Qed.

(** The name part of the predicate: steps 2 to 4 of its evaluation. *)
Lemma isValidResult_no_prefix_hit (e : DNSEntry)
    (allowed blacklist : list string) (ips : list Net.IPNet) :
  anyContains ips (ParseIP (Value e)) = false ->
  isValidResult ParseIP e allowed blacklist ips =
  match ips, allowed with
  | _ :: _, [] => false
  | _, [] => negb (isAllowed blacklist (Name e))
  | _, _ => isAllowed allowed (Name e) && negb (isAllowed blacklist (Name e))
  end.
Proof.
  intros Hno. unfold isValidResult. rewrite Hno.
  destruct ips as [|n ips], allowed as [|a allowed],
           blacklist as [|b blacklist];
    try reflexivity;
    cbn [List.length Nat.ltb Nat.leb];
    try (destruct (isAllowed (a :: allowed) (Name e)));
    try (destruct (isAllowed (b :: blacklist) (Name e)));
    reflexivity.
Qed.

(** C2 (as amended): the deny list excludes every entry the IP-prefix
    check did not admit: when the name ends with a deny-list entry and
    the value lies in no configured prefix (in particular when no prefix
    is configured), the predicate is false whatever the allow list. *)
Theorem deny_excludes_unless_prefix_hit (e : DNSEntry)
    (allowed blacklist : list string) (ips : list Net.IPNet) :
  isAllowed blacklist (Name e) = true ->
  (forall n, In n ips -> Net.Contains n (ParseIP (Value e)) = false) ->
  isValidResult ParseIP e allowed blacklist ips = false.
Proof.
  intros Hdeny Hno. apply anyContains_false in Hno.
  rewrite (isValidResult_no_prefix_hit _ _ _ _ Hno), Hdeny.
  destruct ips, allowed; simpl; auto using andb_false_r.
Qed.

(** C3: when some configured prefix contains the parsed value, the
    predicate is true for every allow list and every deny list. *)
Theorem prefix_hit_short_circuits (e : DNSEntry)
    (allowed blacklist : list string) (ips : list Net.IPNet)
    (n : Net.IPNet) :
  In n ips ->
  Net.Contains n (ParseIP (Value e)) = true ->
  isValidResult ParseIP e allowed blacklist ips = true.
Proof.
  intros Hin Hn.
  assert (Hany : anyContains ips (ParseIP (Value e)) = true)
    by (apply anyContains_true; exists n; auto).
  unfold isValidResult. rewrite Hany.
  destruct ips as [|p ips]; [destruct Hin | reflexivity].
Qed.

(** C4: when the prefix set is not empty and no prefix contains the
    parsed value, the predicate is false for an empty allow list and is
    decided by the name checks for a non-empty one. *)
Theorem prefix_miss_falls_through (e : DNSEntry)
    (allowed blacklist : list string) (ips : list Net.IPNet) :
  ips <> [] ->
  (forall n, In n ips -> Net.Contains n (ParseIP (Value e)) = false) ->
  (allowed = [] -> isValidResult ParseIP e allowed blacklist ips = false)
  /\ (allowed <> [] ->
      isValidResult ParseIP e allowed blacklist ips =
      isAllowed allowed (Name e) && negb (isAllowed blacklist (Name e))).
Proof.
  intros Hips Hno. apply anyContains_false in Hno.
  rewrite (isValidResult_no_prefix_hit _ _ _ _ Hno).
  destruct ips as [|n ips]; [contradiction|].
  destruct allowed as [|a allowed]; split; intros H;
    try reflexivity; try discriminate; contradiction.
Qed.

(** C9: when the value is no IP address, the parsed address is nil; no
    prefix of the shape [net.ParseCIDR] returns contains it, the
    comparison loop of [Contains] stays within its slices, and the
    predicate is false for an empty allow list and decided by the name
    checks otherwise. *)
Theorem unparseable_value_never_admitted (e : DNSEntry)
    (allowed blacklist : list string) (ips : list Net.IPNet) :
  ParseIP (Value e) = [] ->
  ips <> [] ->
  Forall (fun n => Net.cidrShaped n = true) ips ->
  (forall n, In n ips ->
     Net.Contains n (ParseIP (Value e)) = false
     /\ List.length (snd (Net.networkNumberAndMask n))
        = List.length (fst (Net.networkNumberAndMask n)))
  /\ anyContains ips (ParseIP (Value e)) = false
  /\ isValidResult ParseIP e allowed blacklist ips =
     match allowed with
     | [] => false
     | _ => isAllowed allowed (Name e)
            && negb (isAllowed blacklist (Name e))
     end.
Proof.
  intros Hnil Hips Hwf. rewrite Forall_forall in Hwf.
  assert (Hno : forall n, In n ips ->
                Net.Contains n (ParseIP (Value e)) = false).
  { intros n Hin. rewrite Hnil. apply NetFacts.Contains_nil; auto. }
  split; [|split].
  - intros n Hin. split; [auto|].
    pose proof (NetFacts.networkNumberAndMask_shape n (Hwf n Hin)) as Hs.
    destruct (Net.networkNumberAndMask n); simpl. apply Hs.
  - apply anyContains_false; exact Hno.
  - apply anyContains_false in Hno.
    rewrite (isValidResult_no_prefix_hit _ _ _ _ Hno).
    destruct ips as [|n ips]; [contradiction|].
    destruct allowed; reflexivity.
Qed.

End PredicateFacts.

(** ** The scan drivers *)

Lemma printed_app (a b : list event) :
  printed (a ++ b)%list = (printed a ++ printed b)%list.
Proof.
  induction a as [|e a IH]; simpl; [reflexivity|].
  destruct e; simpl; now rewrite IH.
Qed.

Lemma calls_app (a b : list event) :
  calls (a ++ b)%list = (calls a ++ calls b)%list.
Proof.
  induction a as [|e a IH]; simpl; [reflexivity|].
  destruct e; simpl; now rewrite IH.
Qed.

Lemma skipn_length_app {A} (a b : list A) :
  skipn (List.length a) (a ++ b)%list = b.
Proof. induction a as [|x a IH]; simpl; auto. Qed.

(** [wrapInt] is the identity on the range of a 64-bit [int]. *)
Lemma wrapInt_small (x : Z) :
  (- 9223372036854775808 <= x < 9223372036854775808)%Z -> wrapInt x = x.
Proof.
  intros H. unfold wrapInt. rewrite Z.mod_small; lia.
Qed.

Section DriverFacts.

Variable ParseIP : string -> Net.IP.
Variable parseDnsHosts : string -> list DNSEntry.
Variable httpGet : string -> httpResult.
Variable Unmarshal : string -> list string -> list string.

(** One turn of the bulk loop: a milestone line at most, the call, the
    name when the predicate holds, and the two counters. *)
Lemma scanRecord_run (allowed blacklist : list string)
    (ips : list Net.IPNet) (e : DNSEntry) (w : world) :
  exists log,
    printed log = [] /\ calls log = [] /\
    scanRecord ParseIP allowed blacklist ips e w =
    (Returned tt,
     {| count := wrapInt (count w + 1);
        valid := if isValidResult ParseIP e allowed blacklist ips
                 then wrapInt (valid w + 1) else valid w;
        out := (out w ++ log ++ Called e ips ::
                (if isValidResult ParseIP e allowed blacklist ips
                 then [Println (Name e)] else []))%list |}).
Proof.
  unfold scanRecord, callIsValidResult, bind, getCount, getValid, when,
    emit, incCount, incValid, ret.
  destruct ((Z.rem (count w) 1000000 =? 0)%Z && (0 <? count w)%Z);
    [exists [LogFDNS (Z.quot (count w) 1000000) (valid w)] | exists []];
    (split; [reflexivity | split; [reflexivity|]]);
    destruct (isValidResult ParseIP e allowed blacklist ips); simpl;
    rewrite <- ?app_assoc; reflexivity.
Qed.

(** The bulk loop over a record sequence. *)
Lemma scanRecords_run (allowed blacklist : list string)
    (ips : list Net.IPNet) (entries : list DNSEntry) :
  forall w, exists w',
    forEach entries (scanRecord ParseIP allowed blacklist ips) w
    = (Returned tt, w')
    /\ printed (out w') =
       (printed (out w)
        ++ map Name (admitted ParseIP entries allowed blacklist ips))%list
    /\ calls (out w') =
       (calls (out w) ++ map (fun e => (e, ips)) entries)%list.
Proof.
  induction entries as [|e entries IH]; intros w.
  - exists w. simpl. rewrite !app_nil_r. auto.
  - destruct (scanRecord_run allowed blacklist ips e w)
      as (log & Hp & Hc & Hrun).
    cbn [forEach]. unfold bind at 1. rewrite Hrun.
    match goal with |- context [forEach entries _ ?w1] =>
      destruct (IH w1) as (w' & Hloop & Hpr & Hca) end.
    exists w'. split; [exact Hloop|].
    cbn [out] in Hpr, Hca.
    rewrite Hpr, Hca, !printed_app, !calls_app, Hp, Hc.
    unfold admitted. cbn [filter map printed calls app].
    destruct (isValidResult ParseIP e allowed blacklist ips);
      cbn [map printed calls app]; rewrite <- !app_assoc; auto.
Qed.

(** The counters after the bulk loop, as long as they stay in range. *)
Lemma scanRecords_counters (allowed blacklist : list string)
    (ips : list Net.IPNet) (entries : list DNSEntry) :
  forall w,
    (0 <= count w)%Z -> (0 <= valid w)%Z ->
    (count w + Z.of_nat (List.length entries) < 9223372036854775808)%Z ->
    (valid w + Z.of_nat (List.length entries) < 9223372036854775808)%Z ->
    let w' :=
      snd (forEach entries (scanRecord ParseIP allowed blacklist ips) w) in
    count w' = (count w + Z.of_nat (List.length entries))%Z
    /\ valid w' =
       (valid w + Z.of_nat (List.length
                   (admitted ParseIP entries allowed blacklist ips)))%Z.
Proof.
  cbv zeta.
  induction entries as [|e entries IH]; intros w Hc Hv Hcb Hvb.
  - simpl. lia.
  - destruct (scanRecord_run allowed blacklist ips e w)
      as (log & _ & _ & Hrun).
    cbn [forEach]. unfold bind. rewrite Hrun.
    assert (Hlen : (List.length (admitted ParseIP entries allowed
                                   blacklist ips)
                    <= List.length entries)%nat)
      by apply filter_length_le.
    cbn [List.length] in Hcb, Hvb.
    match goal with |- context [forEach entries _ ?w1] =>
      specialize (IH w1) end.
    cbn [count valid] in IH.
    rewrite (wrapInt_small (count w + 1)) in IH |- * by lia.
    unfold admitted in *. cbn [filter List.length].
    destruct (isValidResult ParseIP e allowed blacklist ips).
    + rewrite (wrapInt_small (valid w + 1)) in IH |- * by lia.
      cbn [List.length]. destruct IH as [IHc IHv]; [lia .. |].
      split; lia.
    + destruct IH as [IHc IHv]; [lia .. |]. split; lia.
Qed.

(** Without prefixes and with an allow list, the predicate is the name
    check alone. *)
Lemma isValidResult_by_name (e : DNSEntry)
    (allowed blacklist : list string) :
  allowed <> [] ->
  isValidResult ParseIP e allowed blacklist [] =
  isAllowed allowed (Name e) && negb (isAllowed blacklist (Name e)).
Proof.
  intros Ha.
  rewrite (isValidResult_no_prefix_hit ParseIP e allowed blacklist [])
    by reflexivity.
  destruct allowed; [contradiction | reflexivity].
Qed.

(** One turn of the certificate loop. *)
Lemma checkCertificate_run (allowed blacklist : list string)
    (d : string) (w : world) :
  let e := {| Name := d; Value := "" |} in
  checkCertificate ParseIP allowed blacklist d w =
  (Returned tt,
   {| count := count w;
      valid := if isValidResult ParseIP e allowed blacklist []
               then wrapInt (valid w + 1) else valid w;
      out := (out w ++ Called e [] ::
              (if isValidResult ParseIP e allowed blacklist []
               then [Println d] else []))%list |}).
Proof.
  cbv zeta.
  unfold checkCertificate, callIsValidResult, bind, when, emit, incValid,
    ret.
  destruct (isValidResult ParseIP _ allowed blacklist []); simpl;
    rewrite <- ?app_assoc; reflexivity.
Qed.

(** The certificate loop over one response. *)
Lemma checkCertificates_run (allowed blacklist : list string)
    (bodyDomain : list string) :
  allowed <> [] ->
  forall w, exists w',
    forEach bodyDomain (checkCertificate ParseIP allowed blacklist) w
    = (Returned tt, w')
    /\ calls (out w') =
       (calls (out w)
        ++ map (fun d => ({| Name := d; Value := "" |}, [])) bodyDomain)%list
    /\ printed (out w') =
       (printed (out w)
        ++ filter (fun d => isAllowed allowed d
                            && negb (isAllowed blacklist d))
                  bodyDomain)%list.
Proof.
  intros Ha. induction bodyDomain as [|d rest IH]; intros w.
  - exists w. simpl. rewrite !app_nil_r. auto.
  - cbn [forEach]. unfold bind at 1. rewrite checkCertificate_run.
    match goal with |- context [forEach rest _ ?w1] =>
      destruct (IH w1) as (w' & Hloop & Hca & Hpr) end.
    exists w'. split; [exact Hloop|].
    cbn [out] in Hpr, Hca.
    rewrite Hpr, Hca, !printed_app, !calls_app.
    rewrite isValidResult_by_name by exact Ha.
    cbn [Name filter map printed calls app].
    destruct (isAllowed allowed d && negb (isAllowed blacklist d));
      cbn [map printed calls app]; rewrite <- !app_assoc; auto.
Qed.

(** The loop over the domains to query: it passes every certificate
    name it receives to the predicate, and prints those that pass. *)
Lemma queryDomains_run (allowed blacklist : list string) :
  allowed <> [] ->
  forall (todo bodyDomain : list string) (w : world),
  exists w' : world,
    queryDomains ParseIP httpGet Unmarshal todo bodyDomain
                 allowed blacklist w
    = (Returned tt, w')
    /\ calls (out w') =
       (calls (out w)
        ++ map (fun d => ({| Name := d; Value := "" |}, []))
               (certificateNames httpGet Unmarshal todo bodyDomain))%list
    /\ printed (out w') =
       (printed (out w)
        ++ filter (fun d => isAllowed allowed d
                            && negb (isAllowed blacklist d))
                  (certificateNames httpGet Unmarshal todo bodyDomain))%list.
Proof.
  intros Ha. induction todo as [|domain rest IH]; intros bodyDomain w.
  - exists w. simpl. rewrite !app_nil_r. auto.
  - cbn [queryDomains certificateNames].
    destruct (httpGet _) as [| |body].
    + unfold bind at 1, emit.
      match goal with |- context [queryDomains _ _ _ rest bodyDomain _ _ ?w1]
        => destruct (IH bodyDomain w1) as (w' & Hq & Hca & Hpr) end.
      exists w'. split; [exact Hq|].
      cbn [out] in Hca, Hpr.
      rewrite Hca, Hpr, printed_app, calls_app. simpl.
      rewrite !app_nil_r. auto.
    + apply IH.
    + destruct (checkCertificates_run allowed blacklist
                  (Unmarshal body bodyDomain) Ha w)
        as (w1 & Hloop & Hca1 & Hpr1).
      unfold bind at 1. rewrite Hloop. unfold bind at 1, emit.
      match goal with
      | |- context [queryDomains _ _ _ rest _ _ _ ?w2] =>
          destruct (IH (Unmarshal body bodyDomain) w2)
            as (w' & Hq & Hca & Hpr)
      end.
      exists w'. split; [exact Hq|].
      cbn [out] in Hca, Hpr.
      rewrite Hca, Hpr, printed_app, calls_app, Hca1, Hpr1. simpl.
      rewrite !app_nil_r, map_app, filter_app, <- !app_assoc. auto.
Qed.

(** C10: the certificate-transparency driver returns; it calls the
    predicate once for every certificate name the log service returned
    for the allow-list domains, each time with a record holding the name
    alone and with the empty prefix set; and the names it prints are, in
    order, exactly those of these names that end with an allow-list
    entry and with no deny-list entry. So a certificate name is emitted
    if and only if it was received, matches the allow list and does not
    match the deny list; no prefix takes part. *)
Theorem certificates_matched_by_name (allowed blacklist : list string)
    (w : world) :
  exists w' : world,
    queryCATransparency ParseIP httpGet Unmarshal allowed blacklist w
    = (Returned tt, w')
    /\ calls (out w') =
       (calls (out w)
        ++ map (fun d => ({| Name := d; Value := "" |}, []))
               (certificateNames httpGet Unmarshal allowed []))%list
    /\ printed (out w') =
       (printed (out w)
        ++ filter (fun d => isAllowed allowed d
                            && negb (isAllowed blacklist d))
                  (certificateNames httpGet Unmarshal allowed []))%list
    /\ forall d,
         In d (emittedBy (queryCATransparency ParseIP httpGet Unmarshal
                            allowed blacklist) w)
         <-> In d (certificateNames httpGet Unmarshal allowed [])
             /\ isAllowed allowed d = true
             /\ isAllowed blacklist d = false.
Proof.
  assert (Hrun : exists w' : world,
    queryCATransparency ParseIP httpGet Unmarshal allowed blacklist w
    = (Returned tt, w')
    /\ calls (out w') =
       (calls (out w)
        ++ map (fun d => ({| Name := d; Value := "" |}, []))
               (certificateNames httpGet Unmarshal allowed []))%list
    /\ printed (out w') =
       (printed (out w)
        ++ filter (fun d => isAllowed allowed d
                            && negb (isAllowed blacklist d))
                  (certificateNames httpGet Unmarshal allowed []))%list).
  { unfold queryCATransparency.
    destruct allowed as [|a rest] eqn:E.
    - exists w. simpl. rewrite !app_nil_r. auto.
    - apply queryDomains_run. discriminate. }
  destruct Hrun as (w' & Hq & Hca & Hpr).
  exists w'.
  split; [exact Hq | split; [exact Hca | split; [exact Hpr |]]].
  intros d. unfold emittedBy. rewrite Hq. cbn [snd].
  rewrite Hpr, skipn_length_app, filter_In, andb_true_iff, negb_true_iff.
  tauto.
Qed.

(** With an allow list or a prefix, [parseFDNS] is its loop. *)
Lemma parseFDNS_filtered (fname : string) (allowed blacklist : list string)
    (ips : list Net.IPNet) (w : world) :
  allowed <> [] \/ ips <> [] ->
  parseFDNS ParseIP parseDnsHosts fname allowed blacklist ips w =
  forEach (parseDnsHosts fname) (scanRecord ParseIP allowed blacklist ips) w.
Proof.
  intros H. unfold parseFDNS.
  destruct allowed as [|a allowed], ips as [|n ips];
    try reflexivity.
  destruct H; contradiction.
Qed.

(** C8 (as amended): with a non-empty allow list or a non-empty prefix
    set, the bulk scan returns and the names it prints are the names of
    the records the predicate admits, in source order; they do not
    depend on the counters or the output the scan starts from, so two
    runs print the same names. *)
Theorem bulk_scan_emits_admitted_in_order (fname : string)
    (allowed blacklist : list string) (ips : list Net.IPNet) (w : world) :
  allowed <> [] \/ ips <> [] ->
  fst (parseFDNS ParseIP parseDnsHosts fname allowed blacklist ips w)
  = Returned tt
  /\ emittedBy (parseFDNS ParseIP parseDnsHosts fname allowed blacklist ips)
               w
     = map Name (admitted ParseIP (parseDnsHosts fname)
                          allowed blacklist ips)
  /\ forall w2,
       emittedBy (parseFDNS ParseIP parseDnsHosts fname allowed blacklist
                            ips) w2
       = emittedBy (parseFDNS ParseIP parseDnsHosts fname allowed blacklist
                              ips) w.
Proof.
  intros H.
  assert (Hem : forall w0,
    fst (parseFDNS ParseIP parseDnsHosts fname allowed blacklist ips w0)
    = Returned tt
    /\ emittedBy (parseFDNS ParseIP parseDnsHosts fname allowed blacklist
                            ips) w0
       = map Name (admitted ParseIP (parseDnsHosts fname)
                            allowed blacklist ips)).
  { intros w0. unfold emittedBy. rewrite (parseFDNS_filtered _ _ _ _ _ H).
    destruct (scanRecords_run allowed blacklist ips (parseDnsHosts fname) w0)
      as (w' & Hrun & Hpr & _).
    rewrite Hrun. cbn [fst snd]. rewrite Hpr, skipn_length_app. auto. }
  split; [apply Hem | split; [apply Hem|]].
  intros w2. rewrite (proj2 (Hem w2)), (proj2 (Hem w)). reflexivity.
Qed.

(** C5 (as amended): with an empty allow list and an empty prefix set,
    [parseFDNS] logs the fatal error and exits with status 1 before it
    reads a record: the predicate is not called, nothing is printed and
    the counters are as they were. The check runs in the bulk worker,
    after its start-up line; the certificate worker started next to it
    has no domain to query and does nothing. *)
Theorem unfiltered_bulk_scan_is_fatal (fname : string)
    (blacklist : list string) (w : world) :
  parseFDNS ParseIP parseDnsHosts fname [] blacklist [] w
  = (Exited 1,
     {| count := count w; valid := valid w;
        out := (out w
                ++ [LogFatal "No valid domains (0) and IPs (0) parsed."])%list
     |})
  /\ runWorker ParseIP parseDnsHosts httpGet Unmarshal
               (FDNS fname [] blacklist []) w
     = (Exited 1,
        {| count := count w; valid := valid w;
           out := (out w
                   ++ [LogPrintln "Parsing FDNS file.";
                       LogFatal "No valid domains (0) and IPs (0) parsed."])%list
        |})
  /\ runWorker ParseIP parseDnsHosts httpGet Unmarshal
               (CATrans [] blacklist) w
     = (Returned tt,
        {| count := count w; valid := valid w;
           out := (out w
                   ++ [LogPrintln "Querying certificate transparency logs."])%list
        |}).
Proof.
  repeat split; cbv [runWorker parseFDNS queryCATransparency queryDomains
    when logFatal exit bind emit ret List.length Nat.leb andb
    count valid out]; rewrite <- ?app_assoc; reflexivity.
Qed.

End DriverFacts.

(** ** Start-up *)

(** When both list files load, the bulk worker gets the networks of the
    deny file and the networks of the allow file are dropped. *)
Lemma main_keeps_last_networks
    (parseDomainFile : string -> (list string * list Net.IPNet) + string)
    (fl : flags) (allow deny : list string)
    (allowNets denyNets : list Net.IPNet) (w : world) :
  String.eqb (file fl) "" = false ->
  String.eqb (domains fl) "" = false ->
  String.eqb (bdomains fl) "" = false ->
  parseDomainFile (domains fl) = inl (allow, allowNets) ->
  parseDomainFile (bdomains fl) = inl (deny, denyNets) ->
  exists w' rest,
    main parseDomainFile fl w
    = (Returned (FDNS (file fl) allow deny denyNets :: rest), w').
Proof.
  intros Hf Hd Hb Ha Hbl. unfold main.
  rewrite Hf, Hd, Hb, Ha, Hbl.
  cbv [when bind emit ret negb].
  destruct (catransoff fl); eexists; eexists; reflexivity.
Qed.

(** ** The scenarios of the specification *)

Import Sample.

(** C2 (counterexample): a denied name is admitted when its address lies
    in a configured prefix: the prefix hit returns before the deny list
    is read. *)
Lemma denied_name_admitted_by_prefix :
  isAllowed ["internal.example.com"] "internal.example.com" = true
  /\ isValidResult Net.parseIPv4
       {| Name := "internal.example.com"; Value := "10.1.2.3" |}
       ["example.com"] ["internal.example.com"] [net10] = true.
Proof. split; reflexivity. Qed.

(** The deny list overrides the allow list. *)
Lemma deny_overrides_allow :
  isValidResult Net.parseIPv4
    {| Name := "internal.example.com"; Value := "" |}
    ["example.com"] ["internal.example.com"] [] = false.
Proof.
  apply (deny_excludes_unless_prefix_hit Net.parseIPv4
           {| Name := "internal.example.com"; Value := "" |}
           ["example.com"] ["internal.example.com"] []).
  - reflexivity.
  - intros n [].
Defined.

(** The address 10.1.2.3 lies in 10.0.0.0/8: the record is included
    whatever its name. *)
Lemma prefix_hit_includes_unrelated_name :
  isValidResult Net.parseIPv4
    {| Name := "unrelated.net"; Value := "10.1.2.3" |}
    ["other.com"] [] [net10] = true.
Proof.
  apply (prefix_hit_short_circuits Net.parseIPv4
           {| Name := "unrelated.net"; Value := "10.1.2.3" |}
           ["other.com"] [] [net10] net10).
  - left; reflexivity.
  - reflexivity.
Defined.

(** The address 8.8.8.8 lies outside 10.0.0.0/8 and the name matches the
    allow list: the record is included by its name. *)
Lemma prefix_miss_included_by_name :
  isValidResult Net.parseIPv4
    {| Name := "sub.other.com"; Value := "8.8.8.8" |}
    ["other.com"] [] [net10] = true.
Proof.
  rewrite (proj2 (prefix_miss_falls_through Net.parseIPv4
                    {| Name := "sub.other.com"; Value := "8.8.8.8" |}
                    ["other.com"] [] [net10]
                    ltac:(discriminate)
                    ltac:(intros n [<- | []]; reflexivity))
                 ltac:(discriminate)).
  reflexivity.
Defined.

(** A record without a value, as the certificate source builds them, is
    decided by its name when prefixes are configured. *)
Lemma empty_value_decided_by_name :
  anyContains [net10; net192] (Net.parseIPv4 "") = false
  /\ isValidResult Net.parseIPv4
       {| Name := "a.example.com"; Value := "" |}
       ["example.com"] [] [net10; net192] = true
  /\ isValidResult Net.parseIPv4
       {| Name := "a.example.com"; Value := "" |}
       [] [] [net10; net192] = false.
Proof.
  pose proof (fun allowed =>
    unparseable_value_never_admitted Net.parseIPv4
      {| Name := "a.example.com"; Value := "" |}
      allowed [] [net10; net192]
      eq_refl ltac:(discriminate)
      ltac:(repeat constructor)) as H.
  split; [apply (H []) | split].
  - rewrite (proj2 (proj2 (H ["example.com"]))). reflexivity.
  - rewrite (proj2 (proj2 (H []))). reflexivity.
Defined.

(** C5 (counterexample): started without list files, the main goroutine
    raises no error and starts both workers; the fatal error comes from
    the bulk worker, after its start. *)
Lemma fatal_error_raised_inside_worker :
  main listFiles noLists initialWorld
  = (Returned [FDNS "fdns.json.gz" [] [] []; CATrans [] []], initialWorld)
  /\ runWorker Net.parseIPv4 bulkFile offline unmarshalNothing
               (FDNS "fdns.json.gz" [] [] []) initialWorld
     = (Exited 1,
        {| count := 1; valid := 0;
           out := [LogPrintln "Parsing FDNS file.";
                   LogFatal "No valid domains (0) and IPs (0) parsed."] |}).
Proof. split; reflexivity. Qed.

(** C6: on the two-record input with one allow-list match, started from
    the initial values of the counters, the scan ends with [valid] at 1
    and [count] at 3, one more than the number of records. *)
Theorem two_record_scan_counters :
  parseFDNS Net.parseIPv4 bulkFile "fdns.json.gz" ["example.com"] [] []
            initialWorld
  = (Returned tt,
     {| count := 3; valid := 1;
        out := [Called {| Name := "a.example.com"; Value := "1.2.3.4" |} [];
                Println "a.example.com";
                Called {| Name := "a.other.com"; Value := "9.9.9.9" |} []]
     |}).
Proof. reflexivity. Qed.

(** From the initial counters, [count] ends one above the number of
    records and [valid] at the number of admitted records. *)
Lemma bulk_scan_counters (ParseIP : string -> Net.IP)
    (parseDnsHosts : string -> list DNSEntry) (fname : string)
    (allowed blacklist : list string) (ips : list Net.IPNet) :
  allowed <> [] \/ ips <> [] ->
  (Z.of_nat (List.length (parseDnsHosts fname)) < 9223372036854775807)%Z ->
  let w' := snd (parseFDNS ParseIP parseDnsHosts fname allowed blacklist
                           ips initialWorld) in
  count w' = (Z.of_nat (List.length (parseDnsHosts fname)) + 1)%Z
  /\ valid w' =
     Z.of_nat (List.length (admitted ParseIP (parseDnsHosts fname)
                                     allowed blacklist ips)).
Proof.
  intros H Hlen. cbv zeta. rewrite (parseFDNS_filtered _ _ _ _ _ _ _ H).
  destruct (scanRecords_counters ParseIP allowed blacklist ips
              (parseDnsHosts fname) initialWorld) as [Hc Hv];
    cbn [initialWorld count valid]; try lia.
  rewrite Hc, Hv. cbn [initialWorld count valid]. lia.
Qed.

(** C7: with an allow file and a deny file that both hold a network, the
    bulk worker is started with the network of the deny file alone; a
    record in the deny file's network is then admitted and a record in
    the allow file's network is not. *)
Theorem deny_file_replaces_prefixes :
  fst (main listFiles bothLists initialWorld)
  = Returned [FDNS "fdns.json.gz" ["example.com"] ["internal.example.com"]
                   [net192];
              CATrans ["example.com"] ["internal.example.com"]]
  /\ listFiles "allow.txt" = inl (["example.com"], [net10])
  /\ isValidResult Net.parseIPv4
       {| Name := "unrelated.net"; Value := "192.168.1.1" |}
       ["example.com"] ["internal.example.com"] [net192] = true
  /\ isValidResult Net.parseIPv4
       {| Name := "unrelated.net"; Value := "10.1.2.3" |}
       ["example.com"] ["internal.example.com"] [net192] = false.
Proof. repeat split; reflexivity. Qed.

(** C8 (counterexample): without allow list and prefixes the scan prints
    nothing, while the predicate holds of both records. *)
Lemma unfiltered_scan_emits_nothing :
  emittedBy (parseFDNS Net.parseIPv4 bulkFile "fdns.json.gz" [] [] [])
            initialWorld = []
  /\ map Name (admitted Net.parseIPv4 (bulkFile "fdns.json.gz") [] [] [])
     = ["a.example.com"; "a.other.com"].
Proof. split; reflexivity. Qed.

(** The end-to-end scenario: the scan prints "a.example.com" alone. *)
Lemma two_record_scan_output :
  emittedBy (parseFDNS Net.parseIPv4 bulkFile "fdns.json.gz"
                       ["example.com"] [] [])
            initialWorld = ["a.example.com"].
Proof.
  assert (Hcfg : ["example.com"] <> [] \/ @nil Net.IPNet <> [])
    by (left; discriminate).
  exact (eq_trans
           (proj1 (proj2 (bulk_scan_emits_admitted_in_order Net.parseIPv4
                            bulkFile "fdns.json.gz" ["example.com"] [] []
                            initialWorld Hcfg)))
           eq_refl).
Defined.

(** * Further properties of the code *)

(** ** Name matching *)

Lemma append_empty_r (s : string) : s ++ "" = s.
Proof. induction s as [|c s IH]; simpl; [reflexivity | now rewrite IH]. Qed.

Lemma append_assoc3 (a b c : string) : (a ++ b) ++ c = a ++ (b ++ c).
Proof. induction a as [|x a IH]; simpl; [reflexivity | now rewrite IH]. Qed.

(** X1: the answer of [isAllowed] depends on which patterns are listed,
    not on their order or number of occurrences: a name matched by a list
    is matched by every list holding the same patterns. *)
Theorem isAllowed_incl (a b : list string) (name : string) :
  (forall p, In p a -> In p b) ->
  isAllowed a name = true ->
  isAllowed b name = true.
Proof.
  intros Hincl Ha. apply isAllowed_spec in Ha.
  destruct Ha as (p & Hin & Hp).
  apply isAllowed_spec. exists p. auto.
Qed.

Lemma isAllowed_incl_witness :
  isAllowed ["other.com"; "example.com"; "other.com"] "a.example.com" = true.
Proof.
  apply (isAllowed_incl ["example.com"; "other.com"]
           ["other.com"; "example.com"; "other.com"] "a.example.com").
  - intros p [<- | [<- | []]]; simpl; auto.
  - reflexivity.
Defined.

(** X2: matching against two lists put together is matching against
    one of them. *)
Theorem isAllowed_app (a b : list string) (name : string) :
  isAllowed (a ++ b)%list name = isAllowed a name || isAllowed b name.
Proof.
  induction a as [|p a IH]; simpl; [reflexivity|].
  destruct (Strings.HasSuffix name p); [reflexivity | exact IH].
Qed.

(** X3: an empty pattern in the list matches every name. *)
Theorem isAllowed_empty_pattern (patterns : list string) (name : string) :
  In "" patterns -> isAllowed patterns name = true.
Proof.
  intros Hin. apply isAllowed_spec. exists "". split; [exact Hin|].
  apply StringsFacts.HasSuffix_spec. exists name.
  symmetry. apply append_empty_r.
Qed.

Lemma isAllowed_empty_pattern_witness :
  isAllowed ["example.com"; ""] "unrelated.net" = true.
Proof.
  apply (isAllowed_empty_pattern ["example.com"; ""] "unrelated.net").
  simpl; auto.
Defined.

(** X4: a matched name stays matched when anything is put in front of
    it. *)
Theorem isAllowed_extend_left (patterns : list string) (pre name : string) :
  isAllowed patterns name = true ->
  isAllowed patterns (pre ++ name) = true.
Proof.
  intros H. apply isAllowed_spec in H. destruct H as (p & Hin & Hp).
  apply StringsFacts.HasSuffix_spec in Hp. destruct Hp as [q ->].
  apply isAllowed_spec. exists p. split; [exact Hin|].
  apply StringsFacts.HasSuffix_spec. exists (pre ++ q).
  symmetry. apply append_assoc3.
Qed.

Lemma isAllowed_extend_left_witness :
  isAllowed ["example.com"] ("mail." ++ "a.example.com") = true.
Proof.
  apply (isAllowed_extend_left ["example.com"] "mail." "a.example.com").
  reflexivity.
Defined.

(** X5: a name shorter than every pattern matches none of them. *)
Theorem isAllowed_short_name (patterns : list string) (name : string) :
  (forall p, In p patterns -> (String.length name < String.length p)%nat) ->
  isAllowed patterns name = false.
Proof.
  intros Hshort. apply isAllowed_false. intros p Hin.
  unfold Strings.HasSuffix.
  replace (String.length p <=? String.length name)%nat with false;
    [reflexivity|].
  symmetry. apply Nat.leb_gt. auto.
Qed.

Lemma isAllowed_short_name_witness :
  isAllowed ["example.com"; "other.com"] "le.com" = false.
Proof.
  apply (isAllowed_short_name ["example.com"; "other.com"] "le.com").
  intros p [<- | [<- | []]]; simpl; lia.
Defined.

(** ** The match predicate *)

Section PredicateMore.

Variable ParseIP : string -> Net.IP.

(** X6: the predicate in closed form: a prefix hit, or else the name
    checks, which apply when an allow list is given or no prefix is. *)
Theorem isValidResult_closed_form (e : DNSEntry)
    (allowed blacklist : list string) (ips : list Net.IPNet) :
  isValidResult ParseIP e allowed blacklist ips =
  anyContains ips (ParseIP (Value e))
  || (((0 <? List.length allowed)%nat || (List.length ips =? 0)%nat)
      && ((List.length allowed =? 0)%nat || isAllowed allowed (Name e))
      && negb (isAllowed blacklist (Name e))).
Proof.
  destruct (anyContains ips (ParseIP (Value e))) eqn:Hany.
  - unfold isValidResult. rewrite Hany.
    destruct ips; [discriminate | reflexivity].
  - rewrite (isValidResult_no_prefix_hit ParseIP e allowed blacklist ips Hany).
    destruct ips, allowed; reflexivity.
Qed.

(** X7: with prefixes and no allow list the predicate is the prefix test
    alone: neither the name nor the deny list is looked at. *)
Theorem isValidResult_prefix_only (e : DNSEntry)
    (blacklist : list string) (ips : list Net.IPNet) :
  ips <> [] ->
  isValidResult ParseIP e [] blacklist ips
  = anyContains ips (ParseIP (Value e)).
Proof.
  intros Hips. unfold isValidResult.
  destruct ips as [|n ips]; [contradiction|].
  cbn [List.length Nat.ltb Nat.leb].
  destruct (anyContains (n :: ips) (ParseIP (Value e))); reflexivity.
Qed.

(** X8: without prefixes the value of the record is not looked at. *)
Theorem isValidResult_value_unused (name v1 v2 : string)
    (allowed blacklist : list string) :
  isValidResult ParseIP {| Name := name; Value := v1 |} allowed blacklist []
  = isValidResult ParseIP {| Name := name; Value := v2 |} allowed blacklist [].
Proof.
  rewrite !(isValidResult_no_prefix_hit ParseIP _ allowed blacklist [])
    by reflexivity.
  reflexivity.
Qed.

(** X9: a longer deny list admits no more: what is valid under a deny
    list is valid under every list holding only patterns of it. *)
Theorem isValidResult_deny_antitone (e : DNSEntry)
    (allowed deny deny' : list string) (ips : list Net.IPNet) :
  (forall p, In p deny -> In p deny') ->
  isValidResult ParseIP e allowed deny' ips = true ->
  isValidResult ParseIP e allowed deny ips = true.
Proof.
  intros Hincl.
  destruct (anyContains ips (ParseIP (Value e))) eqn:Hany.
  - intros _. unfold isValidResult. rewrite Hany.
    destruct ips; [discriminate | reflexivity].
  - rewrite !(isValidResult_no_prefix_hit ParseIP e allowed _ ips Hany).
    assert (Hd : isAllowed deny' (Name e) = false ->
                 isAllowed deny (Name e) = false).
    { rewrite !isAllowed_false. auto. }
    destruct ips, allowed; try discriminate;
      rewrite ?andb_true_iff, !negb_true_iff; intuition.
Qed.

(** X10: a longer allow list admits no less, once an allow list is
    given. *)
Theorem isValidResult_allow_monotone (e : DNSEntry)
    (allowed allowed' blacklist : list string) (ips : list Net.IPNet) :
  allowed <> [] ->
  (forall p, In p allowed -> In p allowed') ->
  isValidResult ParseIP e allowed blacklist ips = true ->
  isValidResult ParseIP e allowed' blacklist ips = true.
Proof.
  intros Hne Hincl.
  assert (Hne' : allowed' <> []).
  { destruct allowed as [|p allowed]; [contradiction|].
    intros ->. apply (Hincl p). left; reflexivity. }
  destruct (anyContains ips (ParseIP (Value e))) eqn:Hany.
  - intros _. unfold isValidResult. rewrite Hany.
    destruct ips; [discriminate | reflexivity].
  - rewrite !(isValidResult_no_prefix_hit ParseIP e _ blacklist ips Hany).
    destruct allowed as [|p allowed]; [contradiction|].
    destruct allowed' as [|p' allowed']; [contradiction|].
    assert (Ha : isAllowed (p :: allowed) (Name e) = true ->
                 isAllowed (p' :: allowed') (Name e) = true).
    { intros H. apply isAllowed_spec in H. destruct H as (q & Hin & Hq).
      apply isAllowed_spec. exists q. auto. }
    destruct ips; rewrite !andb_true_iff; intuition.
Qed.

(** X11: more prefixes admit no less, once a prefix is given. *)
Theorem isValidResult_prefix_monotone (e : DNSEntry)
    (allowed blacklist : list string) (ips ips' : list Net.IPNet) :
  ips <> [] ->
  (forall n, In n ips -> In n ips') ->
  isValidResult ParseIP e allowed blacklist ips = true ->
  isValidResult ParseIP e allowed blacklist ips' = true.
Proof.
  intros Hne Hincl.
  assert (Hne' : ips' <> []).
  { destruct ips as [|n ips]; [contradiction|].
    intros ->. apply (Hincl n). left; reflexivity. }
  destruct (anyContains ips' (ParseIP (Value e))) eqn:Hany'.
  - intros _. unfold isValidResult. rewrite Hany'.
    destruct ips'; [discriminate | reflexivity].
  - assert (Hany : anyContains ips (ParseIP (Value e)) = false).
    { rewrite anyContains_false in *. auto. }
    rewrite (isValidResult_no_prefix_hit ParseIP e _ blacklist ips Hany),
            (isValidResult_no_prefix_hit ParseIP e _ blacklist ips' Hany').
    destruct ips as [|n ips]; [contradiction|].
    destruct ips' as [|n' ips']; [contradiction|].
    auto.
Qed.

End PredicateMore.

Lemma isValidResult_prefix_only_witness :
  isValidResult Net.parseIPv4
    {| Name := "internal.example.com"; Value := "8.8.8.8" |}
    [] ["internal.example.com"] [net10]
  = anyContains [net10] (Net.parseIPv4 "8.8.8.8").
Proof.
  apply (isValidResult_prefix_only Net.parseIPv4
           {| Name := "internal.example.com"; Value := "8.8.8.8" |}
           ["internal.example.com"] [net10]).
  discriminate.
Defined.

Lemma isValidResult_deny_antitone_witness :
  isValidResult Net.parseIPv4
    {| Name := "a.example.com"; Value := "1.2.3.4" |}
    ["example.com"] ["internal.example.com"] [] = true.
Proof.
  apply (isValidResult_deny_antitone Net.parseIPv4
           {| Name := "a.example.com"; Value := "1.2.3.4" |}
           ["example.com"] ["internal.example.com"]
           ["b.example.com"; "internal.example.com"] []).
  - intros p [<- | []]; simpl; auto.
  - reflexivity.
Defined.

Lemma isValidResult_allow_monotone_witness :
  isValidResult Net.parseIPv4
    {| Name := "a.example.com"; Value := "1.2.3.4" |}
    ["other.com"; "example.com"] [] [] = true.
Proof.
  apply (isValidResult_allow_monotone Net.parseIPv4
           {| Name := "a.example.com"; Value := "1.2.3.4" |}
           ["example.com"] ["other.com"; "example.com"] [] []).
  - discriminate.
  - intros p [<- | []]; simpl; auto.
  - reflexivity.
Defined.

Lemma isValidResult_prefix_monotone_witness :
  isValidResult Net.parseIPv4
    {| Name := "unrelated.net"; Value := "10.1.2.3" |}
    [] [] [net192; net10] = true.
Proof.
  apply (isValidResult_prefix_monotone Net.parseIPv4
           {| Name := "unrelated.net"; Value := "10.1.2.3" |}
           [] [] [net10] [net192; net10]).
  - discriminate.
  - intros n [<- | []]; simpl; auto.
  - reflexivity.
Defined.

(** ** Start-up *)

Section MainMore.

Variable parseDomainFile :
  string -> (list string * list Net.IPNet) + string.

Lemma eqb_empty_false (s : string) : s <> "" -> String.eqb s "" = false.
Proof. intros H. now apply String.eqb_neq. Qed.

(** X12: without [-file], [main] prints the usage, exits with status 1,
    reads no list file and starts no worker. *)
Theorem main_usage (fl : flags) (w : world) :
  file fl = "" ->
  main parseDomainFile fl w
  = (Exited 1,
     {| count := count w; valid := valid w;
        out := (out w ++ [Println "Usage:"; PrintDefaults])%list |}).
Proof.
  intros Hf. unfold main. rewrite Hf.
  cbv [String.eqb when bind emit exit ret count valid out].
  rewrite <- app_assoc. reflexivity.
Qed.

(** X13: when the allow file cannot be read, [main] logs the error and
    exits with status 1 before the deny file is read and before a worker
    is started. *)
Theorem main_allow_file_error (fl : flags) (err : string) (w : world) :
  file fl <> "" ->
  domains fl <> "" ->
  parseDomainFile (domains fl) = inr err ->
  main parseDomainFile fl w
  = (Exited 1,
     {| count := count w; valid := valid w;
        out := (out w
                ++ [LogFatal ("Error reading domain file: " ++ err)])%list |}).
Proof.
  intros Hf Hd Herr. unfold main.
  rewrite (eqb_empty_false _ Hf), (eqb_empty_false _ Hd), Herr.
  reflexivity.
Qed.

(** X14: when the allow file loads and the deny file cannot be read,
    [main] logs the size of the allow list, then the error, and exits
    with status 1 without starting a worker. *)
Theorem main_deny_file_error (fl : flags) (allow : list string)
    (nets : list Net.IPNet) (err : string) (w : world) :
  file fl <> "" ->
  domains fl <> "" ->
  bdomains fl <> "" ->
  parseDomainFile (domains fl) = inl (allow, nets) ->
  parseDomainFile (bdomains fl) = inr err ->
  main parseDomainFile fl w
  = (Exited 1,
     {| count := count w; valid := valid w;
        out := (out w
                ++ [LogLimit false (List.length allow);
                    LogFatal ("Error reading blacklist domain file: "
                              ++ err)])%list |}).
Proof.
  intros Hf Hd Hb Ha Herr. unfold main.
  rewrite (eqb_empty_false _ Hf), (eqb_empty_false _ Hd),
          (eqb_empty_false _ Hb), Ha, Herr.
  cbv [when bind emit logFatal exit ret negb count valid out].
  rewrite <- app_assoc. reflexivity.
Qed.

(** X15: whenever [main] gets to start workers, the bulk worker on the
    given file comes first, the certificate worker follows unless
    [-catransoff] is set, both get the same allow and deny lists, and
    the counters are as before. *)
Theorem main_workers (fl : flags) (w w' : world) (ws : list worker) :
  main parseDomainFile fl w = (Returned ws, w') ->
  file fl <> ""
  /\ count w' = count w /\ valid w' = valid w
  /\ exists allowed blacklist ips,
       ws = FDNS (file fl) allowed blacklist ips
            :: (if catransoff fl then []
                else [CATrans allowed blacklist]).
Proof.
  unfold main. intros H.
  destruct (String.eqb (file fl) "") eqn:Hf; [discriminate|].
  apply String.eqb_neq in Hf. split; [exact Hf|].
  revert H. cbv [when bind ret emit logFatal exit].
  destruct (String.eqb (domains fl) ""); cbn [negb];
    [| destruct (parseDomainFile (domains fl)) as [[a an] | e1];
       [| discriminate]];
    (destruct (String.eqb (bdomains fl) ""); cbn [negb];
     [| destruct (parseDomainFile (bdomains fl)) as [[b bn] | e2];
        [| discriminate]]);
    intros H; inversion H; subst; cbn [count valid];
    (split; [reflexivity | split; [reflexivity|]]);
    do 3 eexists; destruct (catransoff fl); reflexivity.
Qed.

End MainMore.

Lemma main_usage_witness :
  main listFiles
       {| file := ""; domains := "allow.txt"; bdomains := "deny.txt";
          catransoff := false |}
       initialWorld
  = (Exited 1,
     {| count := 1; valid := 0; out := [Println "Usage:"; PrintDefaults] |}).
Proof.
  apply (main_usage listFiles
           {| file := ""; domains := "allow.txt"; bdomains := "deny.txt";
              catransoff := false |}
           initialWorld).
  reflexivity.
Defined.

Lemma main_allow_file_error_witness :
  main listFiles
       {| file := "fdns.json.gz"; domains := "missing.txt";
          bdomains := "deny.txt"; catransoff := false |}
       initialWorld
  = (Exited 1,
     {| count := 1; valid := 0;
        out := [LogFatal "Error reading domain file: no such file"] |}).
Proof.
  apply (main_allow_file_error listFiles
           {| file := "fdns.json.gz"; domains := "missing.txt";
              bdomains := "deny.txt"; catransoff := false |}
           "no such file" initialWorld).
  - discriminate.
  - discriminate.
  - reflexivity.
Defined.

Lemma main_deny_file_error_witness :
  main listFiles
       {| file := "fdns.json.gz"; domains := "allow.txt";
          bdomains := "missing.txt"; catransoff := false |}
       initialWorld
  = (Exited 1,
     {| count := 1; valid := 0;
        out := [LogLimit false 1;
                LogFatal
                  "Error reading blacklist domain file: no such file"] |}).
Proof.
  apply (main_deny_file_error listFiles
           {| file := "fdns.json.gz"; domains := "allow.txt";
              bdomains := "missing.txt"; catransoff := false |}
           ["example.com"] [net10] "no such file" initialWorld).
  - discriminate.
  - discriminate.
  - discriminate.
  - reflexivity.
  - reflexivity.
Defined.

Lemma main_workers_witness :
  "fdns.json.gz" <> ""
  /\ count {| count := 1; valid := 0; out := [LogLimit false 1] |} = 1%Z
  /\ valid {| count := 1; valid := 0; out := [LogLimit false 1] |} = 0%Z
  /\ exists allowed blacklist ips,
       [FDNS "fdns.json.gz" ["example.com"] [] [net10]]
       = FDNS "fdns.json.gz" allowed blacklist ips :: [].
Proof.
  apply (main_workers listFiles
           {| file := "fdns.json.gz"; domains := "allow.txt";
              bdomains := ""; catransoff := true |}
           initialWorld
           {| count := 1; valid := 0; out := [LogLimit false 1] |}
           [FDNS "fdns.json.gz" ["example.com"] [] [net10]]).
  reflexivity.
Defined.

Lemma main_keeps_last_networks_witness :
  exists w' rest,
    main listFiles bothLists initialWorld
    = (Returned (FDNS "fdns.json.gz" ["example.com"]
                      ["internal.example.com"] [net192] :: rest), w').
Proof.
  apply (main_keeps_last_networks listFiles bothLists
           ["example.com"] ["internal.example.com"] [net10] [net192]
           initialWorld); reflexivity.
Defined.

(** ** The scan drivers *)

Lemma milestones_app (a b : list event) :
  milestones (a ++ b)%list = (milestones a ++ milestones b)%list.
Proof.
  induction a as [|e a IH]; simpl; [reflexivity|].
  destruct e; simpl; now rewrite IH.
Qed.

(** The multiples of a million up to [c] are one more than those up to
    [c - 1] exactly when the test of the milestone line holds of [c]. *)
Lemma million_step (c : Z) :
  (1 <= c)%Z ->
  (c / 1000000 =
   (c - 1) / 1000000
   + (if (Z.rem c 1000000 =? 0) && (0 <? c) then 1 else 0))%Z.
Proof.
  intros Hc. rewrite Z.rem_mod_nonneg by lia.
  replace (0 <? c)%Z with true by (symmetry; apply Z.ltb_lt; lia).
  rewrite andb_true_r.
  destruct (c mod 1000000 =? 0)%Z eqn:E;
    [apply Z.eqb_eq in E | apply Z.eqb_neq in E];
    Z.div_mod_to_equations; lia.
Qed.

Section DriverMore.

Variable ParseIP : string -> Net.IP.
Variable parseDnsHosts : string -> list DNSEntry.
Variable httpGet : string -> httpResult.
Variable Unmarshal : string -> list string -> list string.

(** One turn of the bulk loop, with its milestone line spelled out. *)
Lemma scanRecord_trace (allowed blacklist : list string)
    (ips : list Net.IPNet) (e : DNSEntry) (w : world) :
  scanRecord ParseIP allowed blacklist ips e w =
  (Returned tt,
   {| count := wrapInt (count w + 1);
      valid := if isValidResult ParseIP e allowed blacklist ips
               then wrapInt (valid w + 1) else valid w;
      out := (out w
              ++ (if (Z.rem (count w) 1000000 =? 0)%Z && (0 <? count w)%Z
                  then [LogFDNS (Z.quot (count w) 1000000) (valid w)]
                  else [])
              ++ Called e ips ::
                 (if isValidResult ParseIP e allowed blacklist ips
                  then [Println (Name e)] else []))%list |}).
Proof.
  unfold scanRecord, callIsValidResult, bind, getCount, getValid, when,
    emit, incCount, incValid, ret.
  destruct ((Z.rem (count w) 1000000 =? 0)%Z && (0 <? count w)%Z);
    destruct (isValidResult ParseIP e allowed blacklist ips); simpl;
    rewrite <- ?app_assoc; reflexivity.
Qed.

(** The milestone lines of the bulk loop, as long as [count] stays in
    range. *)
Lemma scanRecords_milestones (allowed blacklist : list string)
    (ips : list Net.IPNet) (entries : list DNSEntry) :
  forall w,
    (1 <= count w)%Z ->
    (count w + Z.of_nat (List.length entries) < 9223372036854775808)%Z ->
    Z.of_nat (List.length (milestones (out (snd
      (forEach entries (scanRecord ParseIP allowed blacklist ips) w)))))
    = (Z.of_nat (List.length (milestones (out w)))
       + (count w + Z.of_nat (List.length entries) - 1) / 1000000
       - (count w - 1) / 1000000)%Z.
Proof.
  induction entries as [|e entries IH]; intros w Hc Hb.
  - simpl. replace (count w + 0 - 1)%Z with (count w - 1)%Z by lia. lia.
  - cbn [forEach]. unfold bind. rewrite scanRecord_trace.
    cbn [List.length] in Hb |- *.
    rewrite IH; cbn [count out];
      rewrite ?(wrapInt_small (count w + 1)) by lia; try lia.
    rewrite !milestones_app, !length_app.
    pose proof (million_step (count w) Hc) as Hstep.
    replace (count w + 1 + Z.of_nat (List.length entries) - 1)%Z
      with (count w + Z.of_nat (S (List.length entries)) - 1)%Z by lia.
    replace (count w + 1 - 1)%Z with (count w) by lia.
    destruct ((Z.rem (count w) 1000000 =? 0)%Z && (0 <? count w)%Z);
      destruct (isValidResult ParseIP e allowed blacklist ips);
      cbn [milestones List.length app]; lia.
Qed.

(** X16: a bulk scan that starts calls the predicate once for each
    record, in file order, with the prefix set it was given. *)
Theorem bulk_scan_calls_once_per_record (fname : string)
    (allowed blacklist : list string) (ips : list Net.IPNet) (w : world) :
  allowed <> [] \/ ips <> [] ->
  calls (out (snd (parseFDNS ParseIP parseDnsHosts fname allowed blacklist
                             ips w)))
  = (calls (out w)
     ++ map (fun e => (e, ips)) (parseDnsHosts fname))%list.
Proof.
  intros H. rewrite (parseFDNS_filtered _ _ _ _ _ _ _ H).
  destruct (scanRecords_run ParseIP allowed blacklist ips
              (parseDnsHosts fname) w) as (w' & Hrun & _ & Hca).
  rewrite Hrun. exact Hca.
Qed.

(** X17: while the counters stay in range, a bulk scan that starts adds
    the number of records to [count] and the number of names it prints
    to [valid]. *)
Theorem bulk_scan_counters_follow_output (fname : string)
    (allowed blacklist : list string) (ips : list Net.IPNet) (w : world) :
  allowed <> [] \/ ips <> [] ->
  (0 <= count w)%Z -> (0 <= valid w)%Z ->
  (count w + Z.of_nat (List.length (parseDnsHosts fname))
   < 9223372036854775808)%Z ->
  (valid w + Z.of_nat (List.length (parseDnsHosts fname))
   < 9223372036854775808)%Z ->
  count (snd (parseFDNS ParseIP parseDnsHosts fname allowed blacklist ips w))
  = (count w + Z.of_nat (List.length (parseDnsHosts fname)))%Z
  /\ valid (snd (parseFDNS ParseIP parseDnsHosts fname allowed blacklist
                           ips w))
     = (valid w
        + Z.of_nat (List.length
            (emittedBy (parseFDNS ParseIP parseDnsHosts fname allowed
                                  blacklist ips) w)))%Z.
Proof.
  intros H Hc Hv Hcb Hvb. unfold emittedBy.
  rewrite (parseFDNS_filtered _ _ _ _ _ _ _ H).
  destruct (scanRecords_counters ParseIP allowed blacklist ips
              (parseDnsHosts fname) w Hc Hv Hcb Hvb) as [Hcount Hvalid].
  destruct (scanRecords_run ParseIP allowed blacklist ips
              (parseDnsHosts fname) w) as (w' & Hrun & Hpr & _).
  rewrite Hrun in *. cbn [snd] in *.
  split; [exact Hcount|].
  rewrite Hvalid, Hpr, skipn_length_app, length_map. reflexivity.
Qed.

(** X18: a bulk scan of [n] records started from the initial counters
    logs [n / 1000000] milestone lines; below a million records it logs
    none. *)
Theorem bulk_scan_milestones (fname : string)
    (allowed blacklist : list string) (ips : list Net.IPNet) :
  allowed <> [] \/ ips <> [] ->
  (Z.of_nat (List.length (parseDnsHosts fname)) < 9223372036854775807)%Z ->
  Z.of_nat (List.length (milestones (out (snd
    (parseFDNS ParseIP parseDnsHosts fname allowed blacklist ips
               initialWorld)))))
  = (Z.of_nat (List.length (parseDnsHosts fname)) / 1000000)%Z.
Proof.
  intros H Hn. rewrite (parseFDNS_filtered _ _ _ _ _ _ _ H).
  rewrite scanRecords_milestones; cbn [initialWorld count out]; try lia.
  cbn [milestones List.length].
  replace (1 + Z.of_nat (List.length (parseDnsHosts fname)) - 1)%Z
    with (Z.of_nat (List.length (parseDnsHosts fname))) by lia.
  change ((1 - 1) / 1000000)%Z with 0%Z. lia.
Qed.

(** X19: [parseFDNS] ends the process, with status 1, exactly when the
    allow list and the prefix set are both empty; a deny list alone does
    not let it start. *)
Theorem bulk_scan_guard (fname : string)
    (allowed blacklist : list string) (ips : list Net.IPNet) (w : world) :
  fst (parseFDNS ParseIP parseDnsHosts fname allowed blacklist ips w)
  = match allowed, ips with
    | [], [] => Exited 1
    | _, _ => Returned tt
    end.
Proof.
  destruct allowed as [|a allowed], ips as [|n ips];
    [reflexivity | | |];
    (rewrite parseFDNS_filtered by (first [left; discriminate
                                          | right; discriminate]);
     match goal with |- context [forEach ?es (scanRecord _ ?a ?b ?i) ?w0] =>
       destruct (scanRecords_run ParseIP a b i es w0) as (w' & Hrun & _)
     end;
     rewrite Hrun; reflexivity).
Qed.

(** The certificate loop leaves [count] alone. *)
Lemma checkCertificates_count (allowed blacklist bodyDomain : list string) :
  forall w,
    count (snd (forEach bodyDomain
                  (checkCertificate ParseIP allowed blacklist) w))
    = count w.
Proof.
  induction bodyDomain as [|d rest IH]; intros w; [reflexivity|].
  cbn [forEach]. unfold bind. rewrite checkCertificate_run.
  rewrite IH. reflexivity.
Qed.

Lemma checkCertificates_returns (allowed blacklist bodyDomain : list string) :
  forall w,
    fst (forEach bodyDomain
           (checkCertificate ParseIP allowed blacklist) w)
    = Returned tt.
Proof.
  induction bodyDomain as [|d rest IH]; intros w; [reflexivity|].
  cbn [forEach]. unfold bind. rewrite checkCertificate_run. apply IH.
Qed.

Lemma queryDomains_count (allowed blacklist : list string) :
  forall (todo bodyDomain : list string) (w : world),
    count (snd (queryDomains ParseIP httpGet Unmarshal todo bodyDomain
                             allowed blacklist w))
    = count w.
Proof.
  induction todo as [|domain rest IH]; intros bodyDomain w; [reflexivity|].
  cbn [queryDomains]. destruct (httpGet _) as [| |body].
  - unfold bind at 1, emit. rewrite IH. reflexivity.
  - apply IH.
  - unfold bind at 1.
    pose proof (checkCertificates_returns allowed blacklist
                  (Unmarshal body bodyDomain) w) as Hret.
    pose proof (checkCertificates_count allowed blacklist
                  (Unmarshal body bodyDomain) w) as Hcnt.
    destruct (forEach (Unmarshal body bodyDomain) _ w) as [r w1].
    cbn [fst snd] in Hret, Hcnt. subst r.
    unfold bind at 1, emit. rewrite IH. cbn [count]. exact Hcnt.
Qed.

(** X20: the certificate driver never changes the count of processed
    records, whatever the log service answers. *)
Theorem certificates_leave_count (allowed blacklist : list string)
    (w : world) :
  count (snd (queryCATransparency ParseIP httpGet Unmarshal allowed
                                  blacklist w))
  = count w.
Proof. apply queryDomains_count. Qed.

(** X21: when every request fails, the certificate driver logs one error
    for each allow-list domain, in order, and does nothing else: no call
    of the predicate, no name printed, no counter changed. *)
Theorem certificates_all_requests_fail (allowed blacklist : list string)
    (w : world) :
  (forall url, httpGet url = GetError) ->
  queryCATransparency ParseIP httpGet Unmarshal allowed blacklist w
  = (Returned tt,
     {| count := count w; valid := valid w;
        out := (out w ++ map LogCTError allowed)%list |}).
Proof.
  intros Hfail. unfold queryCATransparency.
  generalize (@nil string) as bodyDomain.
  generalize allowed at 1 3 as todo. revert w.
  intros w todo. revert w.
  induction todo as [|domain rest IH]; intros w bodyDomain.
  - simpl. rewrite app_nil_r. destruct w; reflexivity.
  - cbn [queryDomains]. rewrite Hfail. unfold bind at 1, emit.
    rewrite IH. cbn [count valid out map].
    rewrite <- app_assoc. reflexivity.
Qed.

End DriverMore.

(** ** Start-up and drivers together *)

Section RunMore.

Variable ParseIP : string -> Net.IP.
Variable parseDnsHosts : string -> list DNSEntry.
Variable httpGet : string -> httpResult.
Variable Unmarshal : string -> list string -> list string.
Variable parseDomainFile :
  string -> (list string * list Net.IPNet) + string.

(** X22: a run with a deny file alone, holding no network, starts the
    bulk worker with nothing to select by, and that worker ends the
    process with status 1. *)
Theorem deny_file_alone_is_fatal (fl : flags) (deny : list string)
    (w : world) :
  file fl <> "" ->
  domains fl = "" ->
  bdomains fl <> "" ->
  parseDomainFile (bdomains fl) = inl (deny, []) ->
  main parseDomainFile fl w
  = (Returned (FDNS (file fl) [] deny []
               :: (if catransoff fl then [] else [CATrans [] deny])),
     {| count := count w; valid := valid w;
        out := (out w ++ [LogLimit true (List.length deny)])%list |})
  /\ forall w0,
       fst (runWorker ParseIP parseDnsHosts httpGet Unmarshal
                      (FDNS (file fl) [] deny []) w0)
       = Exited 1.
Proof.
  intros Hf Hd Hb Hdeny. split.
  - unfold main.
    rewrite (eqb_empty_false _ Hf), (eqb_empty_false _ Hb), Hd, Hdeny.
    cbv [String.eqb when bind emit ret negb count valid out].
    destruct (catransoff fl); reflexivity.
  - intros w0. reflexivity.
Qed.

(** X23: without an allow file the certificate worker, when started,
    has no domain to query: it logs its start-up line and returns. *)
Theorem no_allow_file_no_certificates (fl : flags) (w w' : world)
    (ws : list worker) (allowed blacklist : list string) :
  domains fl = "" ->
  main parseDomainFile fl w = (Returned ws, w') ->
  In (CATrans allowed blacklist) ws ->
  allowed = []
  /\ forall w0,
       runWorker ParseIP parseDnsHosts httpGet Unmarshal
                 (CATrans allowed blacklist) w0
       = (Returned tt,
          {| count := count w0; valid := valid w0;
             out := (out w0 ++ [LogPrintln
                       "Querying certificate transparency logs."])%list |}).
Proof.
  intros Hd Hmain Hin.
  assert (Ha : allowed = []).
  { revert Hmain. unfold main. rewrite Hd.
    change (String.eqb "" "") with true.
    cbv [when bind ret emit logFatal exit negb].
    destruct (String.eqb (file fl) ""); [discriminate|].
    destruct (String.eqb (bdomains fl) ""); cbn [negb];
      [| destruct (parseDomainFile (bdomains fl)) as [[b bn] | e2];
         [| discriminate]];
      intros H; inversion H; subst;
      destruct (catransoff fl);
      repeat (destruct Hin as [Hin | Hin]; try discriminate;
              try (inversion Hin; reflexivity));
      destruct Hin. }
  subst allowed. split; [reflexivity|].
  intros w0. reflexivity.
Qed.

End RunMore.

Lemma bulk_scan_calls_once_per_record_witness :
  calls (out (snd (parseFDNS Net.parseIPv4 bulkFile "fdns.json.gz"
                             ["example.com"] [] [net10] initialWorld)))
  = [({| Name := "a.example.com"; Value := "1.2.3.4" |}, [net10]);
     ({| Name := "a.other.com"; Value := "9.9.9.9" |}, [net10])].
Proof.
  apply (bulk_scan_calls_once_per_record Net.parseIPv4 bulkFile
           "fdns.json.gz" ["example.com"] [] [net10] initialWorld).
  left; discriminate.
Defined.

Lemma bulk_scan_counters_follow_output_witness :
  count (snd (parseFDNS Net.parseIPv4 bulkFile "fdns.json.gz"
                        ["example.com"] [] []
                        {| count := 7; valid := 4; out := [] |}))
  = (7 + 2)%Z
  /\ valid (snd (parseFDNS Net.parseIPv4 bulkFile "fdns.json.gz"
                           ["example.com"] [] []
                           {| count := 7; valid := 4; out := [] |}))
     = (4 + Z.of_nat (List.length
              (emittedBy (parseFDNS Net.parseIPv4 bulkFile "fdns.json.gz"
                                    ["example.com"] [] [])
                         {| count := 7; valid := 4; out := [] |})))%Z.
Proof.
  apply (bulk_scan_counters_follow_output Net.parseIPv4 bulkFile
           "fdns.json.gz" ["example.com"] [] []
           {| count := 7; valid := 4; out := [] |}).
  - left; discriminate.
  - simpl; lia.
  - simpl; lia.
  - simpl; lia.
  - simpl; lia.
Defined.

Lemma bulk_scan_milestones_witness :
  Z.of_nat (List.length (milestones (out (snd
    (parseFDNS Net.parseIPv4 bulkFile "fdns.json.gz" ["example.com"] [] []
               initialWorld)))))
  = (Z.of_nat (List.length (bulkFile "fdns.json.gz")) / 1000000)%Z.
Proof.
  apply (bulk_scan_milestones Net.parseIPv4 bulkFile "fdns.json.gz"
           ["example.com"] [] []).
  - left; discriminate.
  - simpl; lia.
Defined.

Lemma bulk_scan_counters_witness :
  count (snd (parseFDNS Net.parseIPv4 bulkFile "fdns.json.gz"
                        ["example.com"] [] [] initialWorld))
  = (Z.of_nat (List.length (bulkFile "fdns.json.gz")) + 1)%Z
  /\ valid (snd (parseFDNS Net.parseIPv4 bulkFile "fdns.json.gz"
                           ["example.com"] [] [] initialWorld))
     = Z.of_nat (List.length (admitted Net.parseIPv4
                                (bulkFile "fdns.json.gz")
                                ["example.com"] [] [])).
Proof.
  apply (bulk_scan_counters Net.parseIPv4 bulkFile "fdns.json.gz"
           ["example.com"] [] []).
  - left; discriminate.
  - simpl; lia.
Defined.

Lemma certificates_all_requests_fail_witness :
  queryCATransparency Net.parseIPv4 offline unmarshalNothing
                      ["example.com"; "other.com"] [] initialWorld
  = (Returned tt,
     {| count := 1; valid := 0;
        out := [LogCTError "example.com"; LogCTError "other.com"] |}).
Proof.
  apply (certificates_all_requests_fail Net.parseIPv4 offline
           unmarshalNothing ["example.com"; "other.com"] [] initialWorld).
  reflexivity.
Defined.

Lemma deny_file_alone_is_fatal_witness :
  main (fun _ => inl (["internal.example.com"], []))
       {| file := "fdns.json.gz"; domains := ""; bdomains := "deny.txt";
          catransoff := true |}
       initialWorld
  = (Returned [FDNS "fdns.json.gz" [] ["internal.example.com"] []],
     {| count := 1; valid := 0; out := [LogLimit true 1] |})
  /\ forall w0,
       fst (runWorker Net.parseIPv4 bulkFile offline unmarshalNothing
              (FDNS "fdns.json.gz" [] ["internal.example.com"] []) w0)
       = Exited 1.
Proof.
  apply (deny_file_alone_is_fatal Net.parseIPv4 bulkFile offline
           unmarshalNothing (fun _ => inl (["internal.example.com"], []))
           {| file := "fdns.json.gz"; domains := "";
              bdomains := "deny.txt"; catransoff := true |}
           ["internal.example.com"] initialWorld).
  - discriminate.
  - reflexivity.
  - discriminate.
  - reflexivity.
Defined.

Lemma no_allow_file_no_certificates_witness :
  @nil string = []
  /\ forall w0,
       runWorker Net.parseIPv4 bulkFile offline unmarshalNothing
                 (CATrans [] []) w0
       = (Returned tt,
          {| count := count w0; valid := valid w0;
             out := (out w0 ++ [LogPrintln
                       "Querying certificate transparency logs."])%list |}).
Proof.
  apply (no_allow_file_no_certificates Net.parseIPv4 bulkFile offline
           unmarshalNothing listFiles noLists initialWorld initialWorld
           [FDNS "fdns.json.gz" [] [] []; CATrans [] []] [] []).
  - reflexivity.
  - reflexivity.
  - simpl; auto.
Defined.
